(** * Match scoring and rationale fallback of the networking server

    A shallow embedding of the scoring core of [server.js]
    ([cosineSimilarity], [calculateMatchScore] with its inner
    [matchesNeedAsset], the candidate scoring loop of the
    [generate-top3] / [generate-brainstorm] routes,
    [generateMatchRationale] and [generateSimpleRationale]), followed by
    the properties the specification states about them.

    Conventions of the embedding.
    - A JavaScript string is a [string] of 8-bit characters; case mapping
      and white space are the ASCII ones.
    - A nullable column or property is a [jsval]: [JUndefined], [JNull]
      or [JStr s].
    - A JavaScript number is a real number ([R]) where the source computes
      with fractions (embedding components, similarity) and an integer
      ([Z]) where it only ever holds integers (points, scores).  Module
      [Binary64] repeats [cosineSimilarity] on IEEE-754 binary64 numbers,
      the arithmetic the server really runs.
    - The candidate scoring loop reads stored vectors, which can hold
      anything, so it computes its similarities in [Binary64]: NaN and the
      infinities reach the scorer and the filter as they do in the source
      ([number]), and a finite similarity enters [calculateMatchScore] as
      the real number it is.
    - [console.error] output is a list of log entries returned next to the
      value; a thrown exception is the [Rejected] case of [outcome]. *)

From Stdlib Require Import ZArith List Bool String Ascii Lia.
From Stdlib Require Import Reals Lra Permutation Sorted.
From Stdlib Require PrimFloat FloatOps SpecFloat.
Import ListNotations.

Local Open Scope string_scope.
Local Open Scope Z_scope.

(* ================================================================== *)
(** ** JavaScript values and string primitives *)

Inductive jsval : Type :=
| JUndefined
| JNull
| JStr (s : string).

(** [!!v] *)
Definition truthy (v : jsval) : bool :=
  match v with
  | JStr s => negb (s =? "")%string
  | _ => false
  end.

(** [v || d] for a string default [d] *)
Definition or_else (v : jsval) (d : string) : string :=
  match v with
  | JStr s => if (s =? "")%string then d else s
  | _ => d
  end.

(** [a === b] *)
Definition strict_eq (a b : jsval) : bool :=
  match a, b with
  | JUndefined, JUndefined => true
  | JNull, JNull => true
  | JStr s, JStr t => (s =? t)%string
  | _, _ => false
  end.

(** [`${v}`] *)
Definition interpolate (v : jsval) : string :=
  match v with
  | JUndefined => "undefined"
  | JNull => "null"
  | JStr s => s
  end.

Module JsString.

Definition lower_char (c : ascii) : ascii :=
  let n := nat_of_ascii c in
  if ((65 <=? n) && (n <=? 90))%nat then ascii_of_nat (n + 32) else c.

Fixpoint toLowerCase (s : string) : string :=
  match s with
  | EmptyString => EmptyString
  | String c r => String (lower_char c) (toLowerCase r)
  end.

(** [s.includes(needle)] *)
Fixpoint includes (s needle : string) : bool :=
  match s with
  | EmptyString => String.prefix needle EmptyString
  | String _ r => String.prefix needle s || includes r needle
  end.

Definition is_space (c : ascii) : bool :=
  let n := nat_of_ascii c in
  (((9 <=? n) && (n <=? 13)) || (n =? 32))%nat.

Fixpoint trimStart (s : string) : string :=
  match s with
  | EmptyString => EmptyString
  | String c r => if is_space c then trimStart r else s
  end.

Fixpoint trimEnd (s : string) : string :=
  match s with
  | EmptyString => EmptyString
  | String c r =>
      let t := trimEnd r in
      if is_space c && (t =? "")%string then EmptyString else String c t
  end.

Definition trim (s : string) : string := trimEnd (trimStart s).

(** [s.split(sep)] for a one-character separator; never the empty list *)
Fixpoint split (sep : ascii) (s : string) : list string :=
  match s with
  | EmptyString => [EmptyString]
  | String c r =>
      if Ascii.eqb c sep then EmptyString :: split sep r
      else match split sep r with
           | h :: t => String c h :: t
           | [] => [String c EmptyString]
           end
  end.

(** [s.split(/\s+/)] *)
Fixpoint split_spaces (s : string) : list string :=
  match s with
  | EmptyString => [EmptyString]
  | String c r =>
      if is_space c then
        match r with
        | String c' _ => if is_space c' then split_spaces r
                         else EmptyString :: split_spaces r
        | EmptyString => EmptyString :: split_spaces r
        end
      else match split_spaces r with
           | h :: t => String c h :: t
           | [] => [String c EmptyString]
           end
  end.

(** [s.substring(0, n)] *)
Fixpoint take (n : nat) (s : string) : string :=
  match n, s with
  | S k, String c r => String c (take k r)
  | _, _ => EmptyString
  end.

End JsString.

(* ================================================================== *)
(** ** Regular expressions, matched by derivatives *)

Module Regex.

Inductive regex : Type :=
| Never
| Eps
| Chr (c : ascii)
| Digit
| Any
| Seq (r1 r2 : regex)
| Alt (r1 r2 : regex)
| Star (r : regex).

Definition Plus (r : regex) : regex := Seq r (Star r).

(** the literal word [w] *)
Fixpoint lit (w : string) : regex :=
  match w with
  | EmptyString => Eps
  | String c r => Seq (Chr c) (lit r)
  end.

(** [w1|w2|...] *)
Fixpoint words (ws : list string) : regex :=
  match ws with
  | [] => Never
  | [w] => lit w
  | w :: r => Alt (lit w) (words r)
  end.

Fixpoint nullable (r : regex) : bool :=
  match r with
  | Never | Chr _ | Digit | Any => false
  | Eps | Star _ => true
  | Seq a b => nullable a && nullable b
  | Alt a b => nullable a || nullable b
  end.

Definition is_digit (c : ascii) : bool :=
  let n := nat_of_ascii c in ((48 <=? n) && (n <=? 57))%nat.

(** derivative by [c]; [i] is the ignore-case flag *)
Fixpoint deriv (i : bool) (c : ascii) (r : regex) : regex :=
  match r with
  | Never | Eps => Never
  | Chr d =>
      if (if i then Ascii.eqb (JsString.lower_char c) (JsString.lower_char d)
          else Ascii.eqb c d)
      then Eps else Never
  | Digit => if is_digit c then Eps else Never
  | Any => Eps
  | Seq a b =>
      if nullable a then Alt (Seq (deriv i c a) b) (deriv i c b)
      else Seq (deriv i c a) b
  | Alt a b => Alt (deriv i c a) (deriv i c b)
  | Star a => Seq (deriv i c a) (Star a)
  end.

(** the whole of [s] matches [r] *)
Fixpoint full_match (i : bool) (r : regex) (s : string) : bool :=
  match s with
  | EmptyString => nullable r
  | String c t => full_match i (deriv i c r) t
  end.

(** [/r/.test(s)], [/r/i.test(s)]: some substring of [s] matches *)
Definition test (i : bool) (r : regex) (s : string) : bool :=
  full_match i (Seq (Star Any) (Seq r (Star Any))) s.

End Regex.

(* ================================================================== *)
(** ** Records of the data model *)

(** A row of table [members], as the scorer reads it. *)
Record member : Type := {
  member_id : jsval;
  name : jsval;
  org : jsval;
  role : jsval;
  industry : jsval;
  city : jsval;
  rev_driver : jsval;
  current_constraint : jsval;
  assets : jsval;
  needs : jsval;
  fun_fact : jsval;
  consent : bool
}.

(** The fields of a collaboration-research object that carry a point
    signal.  [creative_collaboration_ideas] is [None] when the property is
    missing or null and [Some ideas] when it is an array. *)
Record research : Type := {
  creative_collaboration_ideas : option (list string);
  value_rating : jsval
}.

(** One entry of the score breakdown (the free-text members
    [description], [reasoning], [details], [insights], [rawSimilarity]
    are display only and left out). *)
Record category : Type := {
  factor : string;
  points : Z;
  maxPoints : Z;
  earned : Z;
  percentage : Z;
  status : string
}.

Record summary : Type := {
  sum_earned : Z;
  possible : Z;
  sum_percentage : Z;
  grade : string
}.

Record scoreData : Type := {
  score : Z;
  breakdown : list category;
  fullBreakdown : list category;
  matches : option (list string);
  score_summary : summary
}.

(* ================================================================== *)
(** ** cosineSimilarity *)

(** [Math.round]: the nearest integer, ties towards plus infinity *)
Definition Math_round (x : R) : Z := Zfloor (x + / 2).

(** The [for] loop of [cosineSimilarity], run over two arrays of one
    length; the accumulators are [(dotProduct, norm1, norm2)]. *)
Fixpoint cosine_loop (vec1 vec2 : list R) (acc : R * R * R) : R * R * R :=
  match vec1, vec2 with
  | x :: r1, y :: r2 =>
      let '(dotProduct, norm1, norm2) := acc in
      cosine_loop r1 r2
        (dotProduct + x * y, norm1 + x * x, norm2 + y * y)%R
  | _, _ => acc
  end.

(** [None] is an absent ([null], [undefined]) vector. *)
Definition cosineSimilarity (vec1 vec2 : option (list R)) : R :=
  match vec1, vec2 with
  | Some v1, Some v2 =>
      if negb (List.length v1 =? List.length v2)%nat then 0%R
      else
        let '(dotProduct, norm1, norm2) := cosine_loop v1 v2 (0, 0, 0)%R in
        if Req_EM_T norm1 0 then 0%R
        else if Req_EM_T norm2 0 then 0%R
        else (dotProduct / (sqrt norm1 * sqrt norm2))%R
  | _, _ => 0%R
  end.

(** The same function on binary64 numbers. *)
Module Binary64.

Import PrimFloat.

Fixpoint cosine_loop (vec1 vec2 : list float) (acc : float * float * float)
  : float * float * float :=
  match vec1, vec2 with
  | x :: r1, y :: r2 =>
      let '(dotProduct, norm1, norm2) := acc in
      cosine_loop r1 r2
        (dotProduct + x * y, norm1 + x * x, norm2 + y * y)%float
  | _, _ => acc
  end.

Definition cosineSimilarity (vec1 vec2 : option (list float)) : float :=
  match vec1, vec2 with
  | Some v1, Some v2 =>
      if negb (List.length v1 =? List.length v2)%nat then 0%float
      else
        let '(dotProduct, norm1, norm2) :=
          cosine_loop v1 v2 (0, 0, 0)%float in
        if (norm1 =? 0)%float || (norm2 =? 0)%float then 0%float
        else (dotProduct / (sqrt norm1 * sqrt norm2))%float
  | _, _ => 0%float
  end.

End Binary64.

(** A JavaScript number by kind: NaN, an infinity or a finite number,
    which is a real number for a similarity and an integer for a score. *)
Inductive number (A : Type) : Type :=
| NaN
| Infinity (negative : bool)
| Finite (x : A).

Arguments NaN {A}.
Arguments Infinity {A} negative.
Arguments Finite {A} x.

(** the kind and the value of a binary64 number *)
Definition toNumber (x : PrimFloat.float) : number R :=
  match FloatOps.Prim2SF x with
  | SpecFloat.S754_nan => NaN
  | SpecFloat.S754_infinity negative => Infinity negative
  | SpecFloat.S754_zero _ => Finite 0%R
  | SpecFloat.S754_finite negative m e =>
      Finite (IZR (if negative then Z.neg m else Z.pos m) * powerRZ 2 e)%R
  end.

(** [a < b] on scores: false whenever one side is NaN *)
Definition lessThan (a b : number Z) : bool :=
  match a, b with
  | Finite x, Finite y => x <? y
  | Infinity true, Finite _ => true
  | Finite _, Infinity false => true
  | Infinity true, Infinity false => true
  | _, _ => false
  end.

(* ================================================================== *)
(** ** matchesNeedAsset *)

Import JsString.

(** the table [keywords]: a key and its synonyms *)
Definition keywords : list (string * list string) :=
  [ ("marketing", ["seo"; "social media"; "content"; "brand"; "advertising";
                   "promotion"; "digital marketing"; "pr";
                   "public relations"; "campaign"]);
    ("seo", ["marketing"; "digital marketing"; "google"; "search";
             "content"; "web"]);
    ("social media", ["marketing"; "content creation"; "brand"; "instagram";
                      "facebook"; "linkedin"; "tiktok"]);
    ("branding", ["marketing"; "design"; "logo"; "identity";
                  "brand strategy"]);
    ("content", ["marketing"; "writing"; "blog"; "social media"; "video";
                 "copywriting"]);
    ("sales", ["lead generation"; "business development"; "revenue";
               "customers"; "pipeline"]);
    ("lead generation", ["sales"; "marketing"; "outreach"; "prospecting";
                         "demand generation"]);
    ("business development", ["sales"; "partnerships"; "growth"; "revenue";
                              "clients"]);
    ("tech", ["technology"; "software"; "development"; "engineering"; "it";
              "technical"]);
    ("software", ["tech"; "development"; "app"; "platform"; "saas";
                  "coding"]);
    ("web development", ["tech"; "software"; "website"; "coding";
                         "programming"; "web design"]);
    ("app development", ["tech"; "software"; "mobile"; "coding"]);
    ("automation", ["tech"; "software"; "efficiency"; "tools"; "systems"]);
    ("finance", ["accounting"; "bookkeeping"; "cfo"; "financial planning";
                 "capital"]);
    ("funding", ["capital"; "investment"; "money"; "financing";
                 "fundraising"]);
    ("investment", ["capital"; "funding"; "money"; "financing"; "venture"]);
    ("operations", ["management"; "efficiency"; "process"; "logistics";
                    "systems"]);
    ("logistics", ["operations"; "supply chain"; "shipping"; "delivery";
                   "distribution"]);
    ("hiring", ["talent"; "recruitment"; "hr"; "staffing"; "team building"]);
    ("talent", ["hiring"; "recruitment"; "team"; "employees"; "hr"]);
    ("strategy", ["planning"; "consulting"; "advisory"; "business strategy";
                  "growth strategy"]);
    ("consulting", ["advisory"; "strategy"; "expertise"; "guidance"]);
    ("partnerships", ["collaboration"; "alliances"; "business development";
                      "joint venture"]) ].

(** the table [needPatterns]: a need expression and an asset expression,
    both with flag [i] *)
Definition needPatterns : list (Regex.regex * Regex.regex) :=
  [ (Regex.words ["customer"; "client"; "lead"],
     Regex.words ["sales"; "marketing"; "business development"; "crm"]);
    (Regex.words ["revenue"; "money"; "profit"],
     Regex.words ["sales"; "marketing"; "finance"; "pricing";
                  "monetization"]);
    (Regex.words ["website"; "web"; "online"],
     Regex.words ["web"; "development"; "design"; "digital"; "tech"]);
    (Regex.words ["brand"; "awareness"; "visibility"],
     Regex.words ["marketing"; "pr"; "social"; "media"; "branding"]);
    (Regex.words ["scale"; "growth"; "expand"],
     Regex.words ["strategy"; "consulting"; "automation"; "systems";
                  "operations"]);
    (Regex.words ["team"; "hire"; "talent"],
     Regex.words ["hr"; "recruitment"; "staffing"; "hiring"]);
    (Regex.words ["legal"; "contract"; "compliance"],
     Regex.words ["law"; "attorney"; "legal"]);
    (Regex.words ["capital"; "funding"; "money"],
     Regex.words ["investment"; "finance"; "funding"; "capital"]) ].

(** rule 1: direct substring match *)
Definition directMatch (need asset : string) : bool :=
  includes asset need || includes need asset.

(** [phrase.includes(key) || synonyms.some(syn => phrase.includes(syn))] *)
Definition inCluster (phrase : string) (entry : string * list string) : bool :=
  includes phrase (fst entry)
  || existsb (fun syn => includes phrase syn) (snd entry).

(** rule 2: both phrases touch one semantic cluster *)
Definition clusterMatch (need asset : string) : bool :=
  let needLower := toLowerCase need in
  let assetLower := toLowerCase asset in
  existsb (fun entry => inCluster needLower entry && inCluster assetLower entry)
          keywords.

(** rule 3: a need pattern and its asset pattern *)
Definition patternMatch (need asset : string) : bool :=
  existsb (fun pattern => Regex.test true (fst pattern) need
                          && Regex.test true (snd pattern) asset)
          needPatterns.

Definition matchesNeedAsset (need asset : string) : bool :=
  if directMatch need asset then true
  else if clusterMatch need asset then true
  else if patternMatch need asset then true
  else false.

(* ================================================================== *)
(** ** calculateMatchScore *)

Definition dquote : string := String (ascii_of_nat 34) EmptyString.

(** [Math.round((p / m) * 100)] for integers [p] and [m > 0] *)
Definition percent (p m : Z) : Z := (200 * p + m) / (2 * m).

(** [field ? field.split(',').map(x => x.trim().toLowerCase()) : []] *)
Definition parseList (field : jsval) : list string :=
  match field with
  | JStr s =>
      if (s =? "")%string then []
      else map (fun x => toLowerCase (trim x)) (split "," s)
  | _ => []
  end.

(** [(field || '').toLowerCase()] *)
Definition lowered (field : jsval) : string := toLowerCase (or_else field "").

(** [field.substring(0, n)] of a truthy field *)
Definition excerpt (n : nat) (field : jsval) : string :=
  take n (or_else field "").

(** *** 1. Universal business potential *)

Definition universalPoints : Z := 30.

Definition universalCategory : category :=
  {| factor := "Universal Business Potential";
     points := universalPoints;
     maxPoints := 30;
     earned := universalPoints;
     percentage := 100;
     status := "baseline" |}.

(** *** 2. Semantic profile similarity *)

Definition maxSemanticPoints : Z := 20.

Definition semanticPoints (similarity : R) : Z :=
  Math_round (similarity * IZR maxSemanticPoints).

Definition semanticCategory (similarity : R) : category :=
  let p := semanticPoints similarity in
  {| factor := "Semantic Profile Similarity";
     points := p;
     maxPoints := maxSemanticPoints;
     earned := p;
     percentage := percent p maxSemanticPoints;
     status := if 14 <? p then "strong"
               else if 8 <? p then "moderate" else "complementary" |}.

(** *** 3. Complementary value exchange *)

(** One pass of the nested [for ... of] loops: every asset against every
    need; a hit increments [complementaryMatches] and pushes a message. *)
Definition exchangeLoop (message : string -> string -> string)
    (assetList needList : list string) (st : Z * list string)
  : Z * list string :=
  fold_left
    (fun st1 asset =>
       fold_left
         (fun st2 need =>
            if matchesNeedAsset need asset
            then (fst st2 + 1, (snd st2 ++ [message asset need])%list)
            else st2)
         needList st1)
    assetList st.

(** The constraint pass: every asset against the other side's constraint,
    skipped when the lower-cased constraint is empty. *)
Definition constraintLoop (message : string -> string)
    (constraintLower : string) (assetList : list string)
    (st : Z * list string) : Z * list string :=
  if (constraintLower =? "")%string then st
  else
    fold_left
      (fun st1 asset =>
         if matchesNeedAsset constraintLower asset
         then (fst st1 + 1, (snd st1 ++ [message asset])%list)
         else st1)
      assetList st.

(** [(complementaryMatches, matches)] after the four passes *)
Definition complementaryScan (member1 member2 : member) : Z * list string :=
  let member1Needs := parseList (needs member1) in
  let member1Assets := parseList (assets member1) in
  let member2Needs := parseList (needs member2) in
  let member2Assets := parseList (assets member2) in
  let st0 := (0, []) in
  let st1 :=
    exchangeLoop
      (fun asset need =>
         "Your " ++ dquote ++ asset ++ dquote
         ++ " addresses their need for " ++ dquote ++ need ++ dquote)
      member1Assets member2Needs st0 in
  let st2 :=
    exchangeLoop
      (fun asset need =>
         "Their " ++ dquote ++ asset ++ dquote
         ++ " addresses your need for " ++ dquote ++ need ++ dquote)
      member2Assets member1Needs st1 in
  let constraint1Lower := lowered (current_constraint member1) in
  let constraint2Lower := lowered (current_constraint member2) in
  let st3 :=
    constraintLoop
      (fun asset =>
         "Your " ++ dquote ++ asset ++ dquote
         ++ " can help solve their stated challenge: " ++ dquote
         ++ excerpt 50 (current_constraint member2) ++ "..." ++ dquote)
      constraint2Lower member1Assets st2 in
  constraintLoop
    (fun asset =>
       "Their " ++ dquote ++ asset ++ dquote
       ++ " can help solve your stated challenge: " ++ dquote
       ++ excerpt 50 (current_constraint member1) ++ "..." ++ dquote)
    constraint1Lower member2Assets st3.

Definition maxComplementaryPoints : Z := 20.

(** [Math.min(complementaryMatches * 4, maxComplementaryPoints)] *)
Definition keywordPoints (member1 member2 : member) : Z :=
  Z.min (fst (complementaryScan member1 member2) * 4) maxComplementaryPoints.

(** The two priority blocks that raise [complementaryPoints] from a
    research object. *)
Definition researchBoost (r : research) (complementaryPoints : Z) : Z :=
  let creativeIdeasCount :=
    match creative_collaboration_ideas r with
    | Some ideas => Z.of_nat (List.length ideas)
    | None => 0
    end in
  let valueRating := lowered (value_rating r) in
  let p1 :=
    if 4 <=? creativeIdeasCount then Z.max complementaryPoints 16
    else if 2 <=? creativeIdeasCount then Z.max complementaryPoints 12
    else if 1 <=? creativeIdeasCount then Z.max complementaryPoints 8
    else complementaryPoints in
  if (valueRating =? "high")%string then Z.max p1 14
  else if (valueRating =? "medium")%string then Z.max p1 9
  else if (valueRating =? "low")%string && (creativeIdeasCount =? 0)
       then Z.max p1 4
  else p1.

Definition complementaryPoints (member1 member2 : member)
    (complementaryValueResearch : option research) : Z :=
  match complementaryValueResearch with
  | Some r => researchBoost r (keywordPoints member1 member2)
  | None => keywordPoints member1 member2
  end.

Definition complementaryCategory (member1 member2 : member)
    (complementaryValueResearch : option research) : category :=
  let p := complementaryPoints member1 member2 complementaryValueResearch in
  {| factor := "Complementary Value Exchange";
     points := p;
     maxPoints := maxComplementaryPoints;
     earned := p;
     percentage := percent p maxComplementaryPoints;
     status := if 12 <? p then "strong"
               else if 6 <? p then "moderate" else "exploratory" |}.

(** *** 4. Market alignment *)

Definition isB2B (rev : string) : bool :=
  includes rev "b2b" || includes rev "enterprise" || includes rev "saas"
  || includes rev "consulting" || includes rev "agency".

Definition isB2C (rev : string) : bool :=
  includes rev "retail" || includes rev "consumer"
  || includes rev "ecommerce" || includes rev "subscription".

Definition isFounder (roleLower : string) : bool :=
  includes roleLower "founder" || includes roleLower "ceo"
  || includes roleLower "owner".

(** [/\$\d+[mk]|\d+ year|million|billion|national|awarded/i] *)
Definition establishedPattern : Regex.regex :=
  Regex.Alt
    (Regex.Seq (Regex.Chr "$")
       (Regex.Seq (Regex.Plus Regex.Digit)
          (Regex.Alt (Regex.Chr "m") (Regex.Chr "k"))))
    (Regex.Alt
       (Regex.Seq (Regex.Plus Regex.Digit) (Regex.lit " year"))
       (Regex.words ["million"; "billion"; "national"; "awarded"])).

Definition isEstablished (funfact : string) : bool :=
  Regex.test true establishedPattern funfact.

Definition maxMarketPoints : Z := 15.

Definition marketPoints (member1 member2 : member) : Z :=
  let rev1 := lowered (rev_driver member1) in
  let rev2 := lowered (rev_driver member2) in
  let isB2B1 := isB2B rev1 in
  let isB2B2 := isB2B rev2 in
  let isB2C1 := isB2C rev1 in
  let isB2C2 := isB2C rev2 in
  let p1 :=
    if (isB2B1 && isB2B2) || (isB2C1 && isB2C2) then 5
    else if (isB2B1 && isB2C2) || (isB2C1 && isB2B2) then 3
    else 0 in
  let isFounder1 := isFounder (lowered (role member1)) in
  let isFounder2 := isFounder (lowered (role member2)) in
  let isEstablished1 := isEstablished (lowered (fun_fact member1)) in
  let isEstablished2 := isEstablished (lowered (fun_fact member2)) in
  let p2 := if isFounder1 && isFounder2 then p1 + 5 else p1 in
  let p3 :=
    if isEstablished1 && isEstablished2 then p2 + 3
    else if (isEstablished1 && negb isEstablished2)
            || (negb isEstablished1 && isEstablished2) then p2 + 2
    else p2 in
  let p4 :=
    if truthy (current_constraint member1)
       && truthy (current_constraint member2) then p3 + 2 else p3 in
  Z.min p4 maxMarketPoints.

Definition marketCategory (member1 member2 : member) : category :=
  let p := marketPoints member1 member2 in
  {| factor := "Market Alignment";
     points := p;
     maxPoints := maxMarketPoints;
     earned := p;
     percentage := percent p maxMarketPoints;
     status := if 10 <? p then "strong"
               else if 5 <? p then "moderate" else "foundational" |}.

(** *** 5. Geographic and logistical synergy *)

Definition maxLocationPoints : Z := 5.

Definition locationPoints (member1 member2 : member) : Z :=
  let city1 := trim (lowered (city member1)) in
  let city2 := trim (lowered (city member2)) in
  if negb (city1 =? "")%string && negb (city2 =? "")%string then
    if (city1 =? city2)%string then 5 else 2
  else 2.

Definition locationCategory (member1 member2 : member) : category :=
  let p := locationPoints member1 member2 in
  {| factor := "Geographic & Logistical Synergy";
     points := p;
     maxPoints := maxLocationPoints;
     earned := p;
     percentage := percent p maxLocationPoints;
     status := if 5 <=? p then "local" else "remote-friendly" |}.

(** *** 6. Strategic growth opportunities *)

(** the keys of the table [crossIndustrySynergies] (its values are
    non-empty descriptions, so a lookup is truthy exactly on a key) *)
Definition crossIndustrySynergies : list string :=
  [ "technology-marketing"; "technology-finance"; "technology-real estate";
    "marketing-real estate"; "marketing-finance";
    "marketing-food & hospitality"; "technology-food & hospitality";
    "real estate-legal"; "finance-legal"; "online education-marketing";
    "consulting-*" ].

Definition hasSynergy (key : string) : bool :=
  existsb (fun k => (k =? key)%string) crossIndustrySynergies.

Definition industryPoints (member1 member2 : member) : Z :=
  let ind1 := lowered (industry member1) in
  let ind2 := lowered (industry member2) in
  let both := negb (ind1 =? "")%string && negb (ind2 =? "")%string in
  if both && negb (ind1 =? ind2)%string then
    let pair1 := toLowerCase (ind1 ++ "-" ++ ind2) in
    let pair2 := toLowerCase (ind2 ++ "-" ++ ind1) in
    let wildcard1 := toLowerCase (ind1 ++ "-*") in
    let wildcard2 := toLowerCase (ind2 ++ "-*") in
    if hasSynergy pair1 then 6
    else if hasSynergy pair2 then 6
    else if hasSynergy wildcard1 then 4
    else if hasSynergy wildcard2 then 4
    else 2
  else if both && (ind1 =? ind2)%string then 4
  else 0.

(** [assets.filter(asset => words.some(word => word.length > 3 &&
    asset.includes(word)))] *)
Definition assetMatches (constraintLower : string) (assetList : list string)
  : list string :=
  let constraintWords := split_spaces constraintLower in
  filter
    (fun asset =>
       existsb (fun word => (3 <? String.length word)%nat
                            && includes asset word)
               constraintWords)
    assetList.

(** the points of one constraint-solution block *)
Definition solutionPoints (owner other : member) : Z :=
  let otherAssets := parseList (assets other) in
  if truthy (current_constraint owner)
     && (0 <? List.length otherAssets)%nat then
    match assetMatches (lowered (current_constraint owner)) otherAssets with
    | [] => 0
    | _ :: _ => 3
    end
  else 0.

Definition maxStrategyPoints : Z := 10.

Definition strategyPoints (member1 member2 : member) : Z :=
  Z.min (industryPoints member1 member2
         + solutionPoints member1 member2
         + solutionPoints member2 member1)
        maxStrategyPoints.

Definition strategyCategory (member1 member2 : member) : category :=
  let p := strategyPoints member1 member2 in
  {| factor := "Strategic Growth Opportunities";
     points := p;
     maxPoints := maxStrategyPoints;
     earned := p;
     percentage := percent p maxStrategyPoints;
     status := if 4 <=? p then "high-value"
               else if 2 <=? p then "valuable" else "exploratory" |}.

(** *** Final score *)

Definition maxPossiblePoints : Z := 100.

Definition gradeOf (overallPercentage : Z) : string :=
  if 85 <=? overallPercentage then "A+"
  else if 75 <=? overallPercentage then "A"
  else if 65 <=? overallPercentage then "B+"
  else if 55 <=? overallPercentage then "B"
  else "C+".

(** the sum of the [points] of a breakdown *)
Definition sumPoints (b : list category) : Z :=
  fold_right (fun c acc => points c + acc) 0 b.

Definition selfMatchResult : scoreData :=
  {| score := 0;
     breakdown := [];
     fullBreakdown := [];
     matches := None;
     score_summary := {| sum_earned := 0; possible := 100;
                         sum_percentage := 0; grade := "N/A" |} |}.

Definition calculateMatchScore (member1 member2 : member) (similarity : R)
    (complementaryValueResearch : option research) : scoreData :=
  if strict_eq (member_id member1) (member_id member2) then selfMatchResult
  else
    let c1 := universalCategory in
    let totalScore := universalPoints in
    let c2 := semanticCategory similarity in
    let totalScore := totalScore + points c2 in
    let c3 := complementaryCategory member1 member2
                complementaryValueResearch in
    let totalScore := totalScore + points c3 in
    let c4 := marketCategory member1 member2 in
    let totalScore := totalScore + points c4 in
    let c5 := locationCategory member1 member2 in
    let totalScore := totalScore + points c5 in
    let c6 := strategyCategory member1 member2 in
    let totalScore := totalScore + points c6 in
    let normalizedScore := Z.min totalScore maxPossiblePoints in
    let overallPercentage := percent normalizedScore maxPossiblePoints in
    {| score := normalizedScore;
       breakdown := [c1; c2; c3; c4; c5; c6];
       fullBreakdown := [c1; c2; c3; c4; c5; c6];
       matches := Some (firstn 3 (snd (complementaryScan member1 member2)));
       score_summary := {| sum_earned := normalizedScore;
                           possible := maxPossiblePoints;
                           sum_percentage := overallPercentage;
                           grade := gradeOf overallPercentage |} |}.

(** The [score] of [calculateMatchScore(member1, member2, similarity)] for
    a binary64 [similarity], as the scoring loop passes it.  After the
    self-pair guard a finite similarity is scored as the real number it
    is.  NaN and an infinity come out of [Math.round(similarity * 20)] and
    of the additions to [totalScore] unchanged, and
    [Math.min(totalScore, 100)] turns plus infinity into 100 and keeps NaN
    and minus infinity. *)
Definition calculateMatchScore64 (member1 member2 : member)
    (similarity : PrimFloat.float)
    (complementaryValueResearch : option research) : number Z :=
  if strict_eq (member_id member1) (member_id member2) then Finite 0
  else
    match toNumber similarity with
    | Finite x =>
        Finite (score (calculateMatchScore member1 member2 x
                         complementaryValueResearch))
    | NaN => NaN
    | Infinity true => Infinity true
    | Infinity false => Finite maxPossiblePoints
    end.

(* ================================================================== *)
(** ** Exceptions and the console *)

(** The result of an operation that may throw: [Rejected message] is a
    thrown [Error] with that [message]. *)
Inductive outcome (A : Type) : Type :=
| Fulfilled (a : A)
| Rejected (message : string).

Arguments Fulfilled {A} a.
Arguments Rejected {A} message.

Definition bind_outcome {A B : Type} (x : outcome A) (k : A -> outcome B)
  : outcome B :=
  match x with
  | Fulfilled a => k a
  | Rejected m => Rejected m
  end.

Notation "'do' x <- e ; k" := (bind_outcome e (fun x => k))
  (at level 10, x name, e at level 100, k at level 200).

(** What the code writes with [console.error]. *)
Inductive logEntry : Type :=
| ScoringError (position : nat) (candidateName : jsval) (message : string)
| ResearchFailed (candidateName : jsval) (message : string)
| PipelineFailed (message : string)
| StageTimedOut (stage : nat)
| ErrorDetails (message : string)
| IntroFailed (candidateName : jsval) (message : string).

(* ================================================================== *)
(** ** The candidate scoring loop of generate-top3 and generate-brainstorm *)

(** A row of the candidate query: the member columns and what
    [JSON.parse(candidate.embedding_ops)] does on the stored text.  It
    throws on malformed text; it gives [None] for [null] and for any other
    value that has no elements; otherwise it gives the elements as the
    binary64 numbers that the products [vec1[i] * vec2[i]] read, which is
    NaN for an element that is no number and an infinity for a numeral
    beyond the binary64 range. *)
Record candidate : Type := {
  profile : member;
  embedding_ops : outcome (option (list PrimFloat.float))
}.

(** An element of [scored].  The members [breakdown], [fullBreakdown],
    [matches] and [summary] are copied from the score data and read again
    only for the score breakdown text of the stored row; they are left
    out, as that text is. *)
Record scoredCandidate : Type := {
  row : candidate;
  sc_score : number Z;
  sc_similarity : PrimFloat.float;
  sc_error : option string;
  sc_research : option research
}.

(** the [try] block of the callback of [candidates.map] *)
Definition tryScore (subject : member)
    (memberEmbedding : option (list PrimFloat.float)) (c : candidate)
  : outcome scoredCandidate :=
  do candidateEmbedding <- embedding_ops c;
  let similarity :=
    Binary64.cosineSimilarity memberEmbedding candidateEmbedding in
  Fulfilled
    {| row := c;
       sc_score := calculateMatchScore64 subject (profile c) similarity None;
       sc_similarity := similarity;
       sc_error := None;
       sc_research := None |}.

(** the zero-score entry of the [catch] block *)
Definition zeroEntry (c : candidate) (message : string) : scoredCandidate :=
  {| row := c;
     sc_score := Finite 0;
     sc_similarity := PrimFloat.zero;
     sc_error := Some message;
     sc_research := None |}.



(** [list.sort((a, b) => b.score - a.score)]: the stable sort by
    descending score, as an insertion sort.  The difference
    [y.score - x.score] is positive exactly when [x.score < y.score]; the
    routes sort what the filter [score > 0] has kept, where no score is
    NaN. *)
Fixpoint insertByScore (x : scoredCandidate) (l : list scoredCandidate)
  : list scoredCandidate :=
  match l with
  | [] => [x]
  | y :: r => if lessThan (sc_score x) (sc_score y)
              then y :: insertByScore x r
              else x :: l
  end.

Definition sortByScore (l : list scoredCandidate) : list scoredCandidate :=
  fold_right insertByScore [] l.



(* ================================================================== *)
(** ** Rationale generation *)

(** A property of a parsed model response: a string, an object or array
    (kept as its [JSON.stringify] text), or missing. *)
Inductive aival : Type :=
| AMissing
| AText (s : string)
| AObject (serialized : string).

Definition present (v : aival) : bool :=
  match v with
  | AMissing => false
  | AText s => negb (s =? "")%string
  | AObject _ => true
  end.

Record rationale : Type := {
  rationale_ops : aival;
  creative_angle : aival;
  intro_basis : aival
}.

(** [field ? field.split(',').map(x => x.trim()) : []] *)
Definition parseTrimmed (field : jsval) : list string :=
  match field with
  | JStr s => if (s =? "")%string then [] else map trim (split "," s)
  | _ => []
  end.

(** One nested loop of [generateSimpleRationale]: every need against
    every asset, by substring containment of the lower-cased phrases. *)
Definition simpleMatches (message : string -> string -> string)
    (needList assetList : list string) : list string :=
  flat_map
    (fun need =>
       flat_map
         (fun asset =>
            if includes (toLowerCase asset) (toLowerCase need)
               || includes (toLowerCase need) (toLowerCase asset)
            then [message asset need] else [])
         assetList)
    needList.

Definition generateSimpleRationale (member1 member2 : member) : rationale :=
  let needs1 := parseTrimmed (needs member1) in
  let assets2 := parseTrimmed (assets member2) in
  let needs2 := parseTrimmed (needs member2) in
  let assets1 := parseTrimmed (assets member1) in
  let found :=
    List.app
      (simpleMatches
         (fun asset need =>
            interpolate (name member2) ++ "'s " ++ asset
            ++ " can help with your need for " ++ need)
         needs1 assets2)
      (simpleMatches
         (fun asset need =>
            "Your " ++ asset ++ " can help " ++ interpolate (name member2)
            ++ "'s need for " ++ need)
         needs2 assets1) in
  let ops :=
    match found with
    | first :: _ => first
    | [] => "Both in " ++ or_else (industry member1) "business" ++ " and "
            ++ or_else (industry member2) "business"
            ++ ", potential for collaboration"
    end in
  let angle :=
    if truthy (fun_fact member1) && truthy (fun_fact member2)
    then "Connect over shared interests"
    else "Explore synergies between " ++ interpolate (org member1)
         ++ " and " ++ interpolate (org member2) in
  let basis :=
    "Start by discussing "
    ++ or_else (current_constraint member1) "current challenges"
    ++ " and how " ++ interpolate (org member2)
    ++ "'s expertise might help" in
  {| rationale_ops := AText ops;
     creative_angle := AText angle;
     intro_basis := AText basis |}.

(** The external text-generation capability, one answer per stage
    function: the value the stage returns, or the error it throws on a
    failed call, a timeout or an unparsable response.  Stage results that
    only feed later prompts are kept as text. *)
Record capability : Type := {
  researchIndustryContext : member -> member -> outcome string;
  researchCompaniesAndPeople : member -> member -> outcome string;
  researchComplementaryValue : member -> member -> outcome research;
  synthesize : member -> member -> string -> string -> research
               -> outcome rationale
}.

(** the [try] block of [generateMatchRationale] *)
Definition tryRationale (ai : capability) (member1 member2 : member)
    (complementaryValueResearch : option research) : outcome rationale :=
  do industryResearch <- researchIndustryContext ai member1 member2;
  do companyResearch <- researchCompaniesAndPeople ai member1 member2;
  do r <- match complementaryValueResearch with
          | Some r => Fulfilled r
          | None =>
              Rejected
                "Cannot read properties of undefined (reading 'value_rating')"
          end;
  do result <- synthesize ai member1 member2 industryResearch
                 companyResearch r;
  if negb (present (rationale_ops result))
     || negb (present (creative_angle result))
     || negb (present (intro_basis result))
  then Rejected "Incomplete AI response from Stage 3 synthesis"
  else Fulfilled result.

(** the stage report of the [catch] block *)
Definition stageReport (message : string) : logEntry :=
  if includes message "Industry research timeout" then StageTimedOut 1
  else if includes message "Company research timeout" then StageTimedOut 2
  else if includes message "OpenAI API timeout" then StageTimedOut 3
  else ErrorDetails message.

Definition generateMatchRationale (ai : capability) (member1 member2 : member)
    (complementaryValueResearch : option research)
  : rationale * list logEntry :=
  match tryRationale ai member1 member2 complementaryValueResearch with
  | Fulfilled result => (result, [])
  | Rejected message =>
      (generateSimpleRationale member1 member2,
       [PipelineFailed message; stageReport message])
  end.

(** ** Persisting a match record *)

Inductive tier : Type := top3 | brainstorm.

Definition tier_eqb (a b : tier) : bool :=
  match a, b with
  | top3, top3 | brainstorm, brainstorm => true
  | _, _ => false
  end.

(** A row of table [intros] (the generated [intro_id], the score
    breakdown text and the time stamp are left out). *)
Record intro : Type := {
  for_member_id : string;
  to_member_id : jsval;
  intro_tier : tier;
  intro_score : number Z;
  intro_rationale_ops : aival;
  intro_creative_angle : aival;
  intro_basis_text : aival;
  acknowledged : bool
}.

Definition sameKey (a b : intro) : bool :=
  (for_member_id a =? for_member_id b)%string
  && strict_eq (to_member_id a) (to_member_id b)
  && tier_eqb (intro_tier a) (intro_tier b).

(** [INSERT ... ON CONFLICT (for_member_id, to_member_id, tier) DO UPDATE]:
    the update keeps the stored status. *)
Fixpoint upsert (r : intro) (table : list intro) : list intro :=
  match table with
  | [] => [r]
  | old :: rest =>
      if sameKey old r then
        {| for_member_id := for_member_id old;
           to_member_id := to_member_id old;
           intro_tier := intro_tier old;
           intro_score := intro_score r;
           intro_rationale_ops := intro_rationale_ops r;
           intro_creative_angle := intro_creative_angle r;
           intro_basis_text := intro_basis_text r;
           acknowledged := acknowledged old |} :: rest
      else old :: upsert r rest
  end.

(** [typeof v === 'object' ? JSON.stringify(v) : v] *)
Definition stringifyObject (v : aival) : aival :=
  match v with
  | AObject text => AText text
  | _ => v
  end.

Definition introOf (memberId : string) (t : tier) (m : scoredCandidate)
    (r : rationale) : intro :=
  {| for_member_id := memberId;
     to_member_id := member_id (profile (row m));
     intro_tier := t;
     intro_score := sc_score m;
     intro_rationale_ops := rationale_ops r;
     intro_creative_angle := creative_angle r;
     intro_basis_text := stringifyObject (intro_basis r);
     acknowledged := false |}.

(** One round of the rationale loop of generate-top3: the research was
    done before and travels with the match. *)
Definition storeTop3 (ai : capability) (memberId : string) (subject : member)
    (st : list intro * list logEntry) (m : scoredCandidate)
  : list intro * list logEntry :=
  let '(r, out) :=
    generateMatchRationale ai subject (profile (row m)) (sc_research m) in
  (upsert (introOf memberId top3 m r) (fst st), (snd st ++ out)%list).

(** One round of the loop of generate-brainstorm: stage 0 runs inside the
    same [try], so its failure skips the match. *)
Definition storeBrainstorm (ai : capability) (memberId : string)
    (subject : member) (st : list intro * list logEntry)
    (m : scoredCandidate) : list intro * list logEntry :=
  match researchComplementaryValue ai subject (profile (row m)) with
  | Rejected message =>
      (fst st,
       (snd st ++ [IntroFailed (name (profile (row m))) message])%list)
  | Fulfilled found =>
      let '(r, out) :=
        generateMatchRationale ai subject (profile (row m)) (Some found) in
      (upsert (introOf memberId brainstorm m r) (fst st),
       (snd st ++ out)%list)
  end.

Definition storeAll (t : tier) (ai : capability) (memberId : string)
    (subject : member) (selected : list scoredCandidate)
    (table : list intro) : list intro * list logEntry :=
  fold_left
    (match t with
     | top3 => storeTop3 ai memberId subject
     | brainstorm => storeBrainstorm ai memberId subject
     end)
    selected (table, []).

(* ================================================================== *)
(** ** Vocabulary of the specification *)

(** [clamp lo hi x]: [x] clamped to the closed interval [[lo, hi]] *)
Definition clamp (lo hi x : Z) : Z := Z.max lo (Z.min x hi).

(** the matcher cut down to its first two rules *)
Definition matchesDirectOrCluster (need asset : string) : bool :=
  if directMatch need asset then true
  else if clusterMatch need asset then true
  else false.

(** the points of the category labelled [label] in a breakdown *)
Definition pointsOf (label : string) (b : list category) : option Z :=
  option_map points (find (fun c => (factor c =? label)%string) b).

(** the dot product and the squared magnitude of the specification *)
Fixpoint dot (v1 v2 : list R) : R :=
  match v1, v2 with
  | x :: r1, y :: r2 => (x * y + dot r1 r2)%R
  | _, _ => 0%R
  end.

Fixpoint sumsq (v : list R) : R :=
  match v with
  | x :: r => (x * x + sumsq r)%R
  | [] => 0%R
  end.

Definition magnitude (v : list R) : R := sqrt (sumsq v).

(** an input on which the contract asks for exactly 0: a vector is absent,
    the lengths differ, or a vector has zero magnitude *)
Definition degenerate (vec1 vec2 : option (list R)) : Prop :=
  match vec1, vec2 with
  | Some v1, Some v2 =>
      List.length v1 <> List.length v2
      \/ magnitude v1 = 0%R \/ magnitude v2 = 0%R
  | _, _ => True
  end.

(** the same for binary64 vectors, a zero vector holding only the two
    zeros of the format *)
Definition isZero64 (x : PrimFloat.float) : Prop :=
  x = PrimFloat.zero \/ x = PrimFloat.neg_zero.

Definition degenerate64 (vec1 vec2 : option (list PrimFloat.float)) : Prop :=
  match vec1, vec2 with
  | Some v1, Some v2 =>
      List.length v1 <> List.length v2
      \/ Forall isZero64 v1 \/ Forall isZero64 v2
  | _, _ => True
  end.







(** an entry whose score is the integer [k] *)
Definition hasScore (k : Z) (s : scoredCandidate) : bool :=
  match sc_score s with
  | Finite z => z =? k
  | _ => false
  end.



(** a capability whose every call fails or times out *)
Definition alwaysFails (ai : capability) : Prop :=
  (forall a b, exists m, researchIndustryContext ai a b = Rejected m)
  /\ (forall a b, exists m, researchCompaniesAndPeople ai a b = Rejected m)
  /\ (forall a b, exists m, researchComplementaryValue ai a b = Rejected m)
  /\ (forall a b i c r, exists m, synthesize ai a b i c r = Rejected m).



(** ** Sample profiles of the concrete checks *)

Definition blankMember (id : jsval) : member :=
  {| member_id := id; name := JNull; org := JNull; role := JNull;
     industry := JNull; city := JNull; rev_driver := JNull;
     current_constraint := JNull; assets := JNull; needs := JNull;
     fun_fact := JNull; consent := true |}.

Definition ann : member :=
  {| member_id := JStr "member-1"; name := JStr "Ann"; org := JStr "Acme";
     role := JStr "CEO"; industry := JStr "Technology";
     city := JStr "Denver"; rev_driver := JStr "B2B SaaS";
     current_constraint := JStr "need more customers";
     assets := JStr "software, automation";
     needs := JStr "marketing, seo";
     fun_fact := JNull; consent := true |}.

Definition bob : member :=
  {| member_id := JStr "member-2"; name := JStr "Bob"; org := JStr "Bolt";
     role := JStr "Owner"; industry := JStr "Marketing";
     city := JStr "Denver"; rev_driver := JStr "agency retainers";
     current_constraint := JNull;
     assets := JStr "social media, branding";
     needs := JStr "web development";
     fun_fact := JNull; consent := true |}.

(** a second profile object without [member_id] *)
Definition anonymousAnn : member :=
  {| member_id := JUndefined; name := JStr "Ann"; org := JStr "Acme";
     role := JStr "CEO"; industry := JStr "Technology";
     city := JStr "Denver"; rev_driver := JStr "B2B SaaS";
     current_constraint := JNull; assets := JStr "software";
     needs := JStr "seo"; fun_fact := JNull; consent := true |}.



(** a capability on which every stage times out *)
Definition deadCapability : capability :=
  {| researchIndustryContext :=
       fun _ _ => Rejected "Industry research timeout after 60 seconds";
     researchCompaniesAndPeople :=
       fun _ _ => Rejected "Company research timeout after 60 seconds";
     researchComplementaryValue :=
       fun _ _ =>
         Rejected "Complementary value research timeout after 90 seconds";
     synthesize :=
       fun _ _ _ _ _ => Rejected "OpenAI API timeout after 90 seconds" |}.

(* ================================================================== *)
(** * Properties *)

(** ** Concrete checks of the embedding *)

Example toLowerCase_sample :
  toLowerCase "B2B SaaS & Co." = "b2b saas & co.".
Proof. reflexivity. Qed.

Example parseList_sample :
  parseList (JStr " SEO , Social Media,") = ["seo"; "social media"; ""]
  /\ parseList (JStr "") = [] /\ parseList JNull = [].
Proof. repeat split. Qed.

Example split_spaces_sample :
  split_spaces "need  more customers" = ["need"; "more"; "customers"]
  /\ split_spaces " a" = [""; "a"] /\ split_spaces "" = [""].
Proof. repeat split. Qed.

Example established_sample :
  isEstablished "raised $5m last year" = true
  /\ isEstablished "10 years in business" = true
  /\ isEstablished "we like hiking" = false.
Proof. repeat split. Qed.

(** The scenario of the specification: needs "marketing, seo" against
    assets "social media, branding" match through the marketing cluster. *)
Example marketing_cluster_sample :
  directMatch "marketing" "social media" = false
  /\ clusterMatch "marketing" "social media" = true
  /\ matchesNeedAsset "seo" "branding" = true
  /\ matchesNeedAsset "plumbing" "dentistry" = false.
Proof. repeat split. Qed.

Example category_points_sample :
  fst (complementaryScan ann bob) = 5
  /\ keywordPoints ann bob = 20
  /\ marketPoints ann bob = 10
  /\ locationPoints ann bob = 5
  /\ strategyPoints ann bob = 6.
Proof. repeat split. Qed.

Example research_boost_sample :
  complementaryPoints (blankMember (JStr "member-1"))
    (blankMember (JStr "member-2")) None = 0
  /\ complementaryPoints (blankMember (JStr "member-1"))
       (blankMember (JStr "member-2"))
       (Some {| creative_collaboration_ideas := Some ["a"; "b"; "c"];
                value_rating := JStr "High" |}) = 14.
Proof. repeat split. Qed.

(** ** Self pairs *)

Lemma strict_eq_refl (v : jsval) : strict_eq v v = true.
Proof. destruct v; simpl; auto using String.eqb_refl. Qed.

Lemma strict_eq_true_iff (a b : jsval) : strict_eq a b = true <-> a = b.
Proof.
  split.
  - destruct a, b; simpl; try discriminate; auto.
    intros H. apply String.eqb_eq in H. now subst.
  - intros ->. apply strict_eq_refl.
Qed.

Lemma self_pair_result (member1 member2 : member) (similarity : R)
    (found : option research) :
  member_id member1 = member_id member2 ->
  calculateMatchScore member1 member2 similarity found = selfMatchResult.
Proof.
  intros H. unfold calculateMatchScore.
  now rewrite H, strict_eq_refl.
Qed.

Lemma non_self_breakdown (member1 member2 : member) (similarity : R)
    (found : option research) :
  strict_eq (member_id member1) (member_id member2) = false ->
  breakdown (calculateMatchScore member1 member2 similarity found)
  = [ universalCategory; semanticCategory similarity;
      complementaryCategory member1 member2 found;
      marketCategory member1 member2; locationCategory member1 member2;
      strategyCategory member1 member2 ].
Proof. intros H. unfold calculateMatchScore. now rewrite H. Qed.

(** C3: scoring a profile against itself gives total score 0 and an empty
    breakdown, whatever the similarity and the research object. *)
Theorem self_match_scores_zero (p : member) (similarity : R)
    (found : option research) :
  score (calculateMatchScore p p similarity found) = 0
  /\ breakdown (calculateMatchScore p p similarity found) = []
  /\ fullBreakdown (calculateMatchScore p p similarity found) = [].
Proof.
  rewrite (self_pair_result p p similarity found eq_refl).
  repeat split.
Qed.

(** C10: the self-pair test reads nothing but [member_id]: any two
    profiles with equal [member_id] values, the two of them undefined
    included, are treated as a self pair and get total score 0 and an
    empty breakdown. *)
Theorem equal_member_id_is_self_pair (member1 member2 : member)
    (similarity : R) (found : option research) :
  member_id member1 = member_id member2 ->
  score (calculateMatchScore member1 member2 similarity found) = 0
  /\ breakdown (calculateMatchScore member1 member2 similarity found) = [].
Proof.
  intros H. rewrite (self_pair_result _ _ similarity found H).
  split; reflexivity.
Qed.

Lemma equal_member_id_is_self_pair_witness :
  name (blankMember JUndefined) <> name anonymousAnn
  /\ score (calculateMatchScore (blankMember JUndefined) anonymousAnn
              1%R None) = 0
  /\ breakdown (calculateMatchScore (blankMember JUndefined) anonymousAnn
                  1%R None) = [].
Proof.
  split; [discriminate | ].
  apply equal_member_id_is_self_pair. reflexivity.
Defined.

Lemma empty_breakdown_only_for_equal_ids (member1 member2 : member)
    (similarity : R) (found : option research) :
  breakdown (calculateMatchScore member1 member2 similarity found) = []
  <-> member_id member1 = member_id member2.
Proof.
  split.
  - intros H. apply strict_eq_true_iff.
    destruct (strict_eq (member_id member1) (member_id member2)) eqn:E; auto.
    rewrite (non_self_breakdown _ _ _ _ E) in H. discriminate.
  - intros H. now rewrite (self_pair_result _ _ similarity found H).
Qed.

(** ** The need/asset matcher *)

Lemma existsb_pointwise {A : Type} (f g : A -> bool) (l : list A) :
  (forall x, f x = g x) -> existsb f l = existsb g l.
Proof.
  intros H. induction l as [|x l IH]; simpl; [reflexivity|].
  now rewrite H, IH.
Qed.

Lemma matchesNeedAsset_rules (need asset : string) :
  matchesNeedAsset need asset
  = directMatch need asset || clusterMatch need asset
    || patternMatch need asset.
Proof.
  unfold matchesNeedAsset.
  destruct (directMatch need asset), (clusterMatch need asset),
    (patternMatch need asset); reflexivity.
Qed.

(** C6: the direct-substring rule and the semantic-cluster rule give the
    same answer when need and asset are swapped, hence so does the matcher
    restricted to these two rules; the pattern-pair rule is directional. *)
Theorem direct_and_cluster_rules_symmetric (need asset : string) :
  directMatch need asset = directMatch asset need
  /\ clusterMatch need asset = clusterMatch asset need
  /\ matchesDirectOrCluster need asset = matchesDirectOrCluster asset need
  /\ patternMatch "customers" "crm" = true
  /\ patternMatch "crm" "customers" = false.
Proof.
  assert (D : directMatch need asset = directMatch asset need)
    by (unfold directMatch; apply orb_comm).
  assert (C : clusterMatch need asset = clusterMatch asset need).
  { unfold clusterMatch. apply existsb_pointwise.
    intros entry. apply andb_comm. }
  repeat split; auto.
  unfold matchesDirectOrCluster. now rewrite D, C.
Qed.

(** ** Bounds of the category points *)

Lemma exchangeLoop_count (message : string -> string -> string)
    (assetList needList : list string) (st : Z * list string) :
  fst st <= fst (exchangeLoop message assetList needList st).
Proof.
  unfold exchangeLoop. revert st.
  induction assetList as [|asset rest IH]; intros st; simpl; [lia|].
  eapply Z.le_trans; [|apply IH].
  clear IH. revert st.
  induction needList as [|need more IHn]; intros st; simpl; [lia|].
  eapply Z.le_trans; [|apply IHn].
  destruct (matchesNeedAsset need asset); simpl; lia.
Qed.

Lemma constraintLoop_count (message : string -> string)
    (constraintLower : string) (assetList : list string)
    (st : Z * list string) :
  fst st <= fst (constraintLoop message constraintLower assetList st).
Proof.
  unfold constraintLoop.
  destruct (constraintLower =? "")%string; [lia|].
  revert st.
  induction assetList as [|asset rest IH]; intros st; simpl; [lia|].
  eapply Z.le_trans; [|apply IH].
  destruct (matchesNeedAsset constraintLower asset); simpl; lia.
Qed.

Lemma complementaryScan_count (member1 member2 : member) :
  0 <= fst (complementaryScan member1 member2).
Proof.
  unfold complementaryScan.
  repeat (eapply Z.le_trans;
          [|first [apply constraintLoop_count | apply exchangeLoop_count]]).
  simpl; lia.
Qed.

Lemma keywordPoints_range (member1 member2 : member) :
  0 <= keywordPoints member1 member2 <= 20.
Proof.
  unfold keywordPoints, maxComplementaryPoints.
  pose proof (complementaryScan_count member1 member2). lia.
Qed.

Lemma researchBoost_raises (r : research) (p : Z) : p <= researchBoost r p.
Proof.
  unfold researchBoost.
  repeat match goal with
         | |- context [if ?b then _ else _] => destruct b
         end; lia.
Qed.

Lemma researchBoost_capped (r : research) (p : Z) :
  p <= 20 -> researchBoost r p <= 20.
Proof.
  intros H. unfold researchBoost.
  repeat match goal with
         | |- context [if ?b then _ else _] => destruct b
         end; lia.
Qed.

Lemma complementaryPoints_range (member1 member2 : member)
    (found : option research) :
  0 <= complementaryPoints member1 member2 found <= 20.
Proof.
  pose proof (keywordPoints_range member1 member2) as K.
  unfold complementaryPoints. destruct found as [r|]; [|exact K].
  pose proof (researchBoost_raises r (keywordPoints member1 member2)).
  pose proof (researchBoost_capped r (keywordPoints member1 member2)).
  lia.
Qed.

Lemma marketPoints_range (member1 member2 : member) :
  0 <= marketPoints member1 member2 <= 15.
Proof.
  unfold marketPoints, maxMarketPoints.
  repeat match goal with
         | |- context [if ?b then _ else _] => destruct b
         end; lia.
Qed.

Lemma locationPoints_range (member1 member2 : member) :
  2 <= locationPoints member1 member2 <= 5.
Proof.
  unfold locationPoints.
  repeat match goal with
         | |- context [if ?b then _ else _] => destruct b
         end; lia.
Qed.

Lemma industryPoints_nonneg (member1 member2 : member) :
  0 <= industryPoints member1 member2.
Proof.
  unfold industryPoints.
  repeat match goal with
         | |- context [if ?b then _ else _] => destruct b
         end; lia.
Qed.

Lemma solutionPoints_nonneg (owner other : member) :
  0 <= solutionPoints owner other.
Proof.
  unfold solutionPoints.
  destruct (truthy (current_constraint owner)
            && (0 <? List.length (parseList (assets other)))%nat); [|lia].
  destruct (assetMatches _ _); lia.
Qed.

Lemma strategyPoints_range (member1 member2 : member) :
  0 <= strategyPoints member1 member2 <= 10.
Proof.
  unfold strategyPoints, maxStrategyPoints.
  pose proof (industryPoints_nonneg member1 member2).
  pose proof (solutionPoints_nonneg member1 member2).
  pose proof (solutionPoints_nonneg member2 member1).
  lia.
Qed.

Lemma Math_round_le (x y : R) : (x <= y)%R -> Math_round x <= Math_round y.
Proof. intros H. unfold Math_round. apply Zfloor_le. lra. Qed.

Lemma Math_round_IZR (z : Z) : Math_round (IZR z) = z.
Proof. unfold Math_round. apply Zfloor_eq. lra. Qed.

(** the value of [Math.round] at a half-integer [z - 1/2 <= x < z + 1/2] *)
Lemma Math_round_eq (z : Z) (x : R) :
  (IZR z - / 2 <= x < IZR z + / 2)%R -> Math_round x = z.
Proof. intros H. unfold Math_round. apply Zfloor_eq. lra. Qed.


Lemma semanticPoints_upper (hi : Z) (similarity : R) :
  (similarity * 20 <= IZR hi)%R -> semanticPoints similarity <= hi.
Proof.
  intros H. unfold semanticPoints, maxSemanticPoints.
  rewrite <- (Math_round_IZR hi). now apply Math_round_le.
Qed.

(** ** The total score *)

Lemma strict_eq_false (a b : jsval) : a <> b -> strict_eq a b = false.
Proof.
  intros H. destruct (strict_eq a b) eqn:E; [|reflexivity].
  apply strict_eq_true_iff in E. contradiction.
Qed.

Lemma score_non_self (member1 member2 : member) (similarity : R)
    (found : option research) :
  member_id member1 <> member_id member2 ->
  score (calculateMatchScore member1 member2 similarity found)
  = Z.min (universalPoints + semanticPoints similarity
           + complementaryPoints member1 member2 found
           + marketPoints member1 member2
           + locationPoints member1 member2
           + strategyPoints member1 member2)
          maxPossiblePoints.
Proof.
  intros H. unfold calculateMatchScore.
  rewrite (strict_eq_false _ _ H). reflexivity.
Qed.

Lemma score_is_capped_sum (member1 member2 : member) (similarity : R)
    (found : option research) :
  score (calculateMatchScore member1 member2 similarity found)
  = Z.min (sumPoints
             (breakdown
                (calculateMatchScore member1 member2 similarity found)))
          100.
Proof.
  unfold calculateMatchScore.
  destruct (strict_eq (member_id member1) (member_id member2));
    [reflexivity|].
  cbn [score breakdown sumPoints fold_right points universalCategory
       semanticCategory complementaryCategory marketCategory
       locationCategory strategyCategory].
  unfold maxPossiblePoints. f_equal. lia.
Qed.

Lemma sum_non_self_lower (member1 member2 : member) (similarity : R)
    (found : option research) :
  member_id member1 <> member_id member2 ->
  32 + semanticPoints similarity
  <= sumPoints
       (breakdown (calculateMatchScore member1 member2 similarity found)).
Proof.
  intros H.
  rewrite (non_self_breakdown _ _ _ _ (strict_eq_false _ _ H)).
  cbn [sumPoints fold_right points universalCategory semanticCategory
       complementaryCategory marketCategory locationCategory
       strategyCategory].
  pose proof (complementaryPoints_range member1 member2 found).
  pose proof (marketPoints_range member1 member2).
  pose proof (locationPoints_range member1 member2).
  pose proof (strategyPoints_range member1 member2).
  unfold universalPoints. lia.
Qed.



(** The semantic category is not clamped (see the baseline floor below),
    so a similarity under that bound, which [cosineSimilarity] never
    returns, takes the sum below 0: two distinct blank profiles at
    similarity -2 have the sum 30 - 40 + 2. *)
Lemma total_score_below_zero :
  score (calculateMatchScore (blankMember (JStr "member-1"))
           (blankMember (JStr "member-2")) (-2)%R None) = -8
  /\ clamp 0 100
       (sumPoints
          (breakdown
             (calculateMatchScore (blankMember (JStr "member-1"))
                (blankMember (JStr "member-2")) (-2)%R None))) = 0.
Proof.
  assert (S : semanticPoints (-2)%R = -40).
  { unfold semanticPoints, maxSemanticPoints. apply Math_round_eq. lra. }
  assert (N : member_id (blankMember (JStr "member-1"))
              <> member_id (blankMember (JStr "member-2")))
    by discriminate.
  split.
  - rewrite (score_non_self _ _ _ _ N), S. reflexivity.
  - rewrite (non_self_breakdown _ _ _ _ (strict_eq_false _ _ N)).
    cbn [sumPoints fold_right points semanticCategory].
    rewrite S. reflexivity.
Qed.

Example score_sample :
  score (calculateMatchScore ann bob (1 / 2)%R None) = 81
  /\ grade (score_summary (calculateMatchScore ann bob (1 / 2)%R None))
     = "A".
Proof.
  assert (S : semanticPoints (1 / 2)%R = 10).
  { unfold semanticPoints, maxSemanticPoints. apply Math_round_eq. lra. }
  unfold calculateMatchScore.
  cbn [ann bob member_id strict_eq String.eqb Ascii.eqb Bool.eqb].
  cbn [score score_summary grade points semanticCategory].
  rewrite S. split; reflexivity.
Qed.

(** ** The baseline floor *)

Lemma cosine_opposed :
  cosineSimilarity (Some [1; 0]%R) (Some [-1; 0]%R) = (-1)%R.
Proof.
  unfold cosineSimilarity. cbn [List.length Nat.eqb negb cosine_loop].
  replace (0 + 1 * -1 + 0 * 0)%R with (-1)%R by ring.
  replace (0 + 1 * 1 + 0 * 0)%R with 1%R by ring.
  replace (0 + -1 * -1 + 0 * 0)%R with 1%R by ring.
  destruct (Req_EM_T 1 0) as [E|_]; [lra|].
  rewrite sqrt_1. field.
Qed.

(** The floor holds from similarity -0.125 upwards: the semantic category
    then takes away no more than the two points every pair earns for
    geography. *)
Lemma baseline_floor_from_minus_eighth (member1 member2 : member)
    (similarity : R) (found : option research) :
  member_id member1 <> member_id member2 ->
  (- 1 / 8 <= similarity)%R ->
  universalPoints
  <= score (calculateMatchScore member1 member2 similarity found).
Proof.
  intros N Hs.
  rewrite score_is_capped_sum.
  pose proof (sum_non_self_lower _ _ similarity found N).
  assert (-2 <= semanticPoints similarity).
  { unfold semanticPoints, maxSemanticPoints.
    rewrite <- (Math_round_eq (-2) (- 5 / 2)%R) by lra.
    apply Math_round_le. lra. }
  unfold universalPoints. lia.
Qed.

(** C2 (the code departs from it): two distinct consenting members whose
    stored vectors are opposed have cosine similarity -1, the semantic
    category then holds -20 points, and the pair scores 12, below the
    30-point baseline. *)
Theorem baseline_floor_broken_by_negative_similarity :
  consent (blankMember (JStr "member-1")) = true
  /\ consent (blankMember (JStr "member-2")) = true
  /\ cosineSimilarity (Some [1; 0]%R) (Some [-1; 0]%R) = (-1)%R
  /\ points (semanticCategory (-1)%R) = -20
  /\ score (calculateMatchScore (blankMember (JStr "member-1"))
              (blankMember (JStr "member-2"))
              (cosineSimilarity (Some [1; 0]%R) (Some [-1; 0]%R)) None)
     = 12
  /\ 12 < universalPoints.
Proof.
  assert (S : semanticPoints (-1)%R = -20).
  { unfold semanticPoints, maxSemanticPoints. apply Math_round_eq. lra. }
  assert (N : member_id (blankMember (JStr "member-1"))
              <> member_id (blankMember (JStr "member-2")))
    by discriminate.
  repeat split.
  - apply cosine_opposed.
  - exact S.
  - rewrite cosine_opposed, (score_non_self _ _ _ _ N), S. reflexivity.
Qed.

(** ** The research boost *)

Lemma pointsOf_complementary (member1 member2 : member) (similarity : R)
    (found : option research) :
  member_id member1 <> member_id member2 ->
  pointsOf "Complementary Value Exchange"
    (breakdown (calculateMatchScore member1 member2 similarity found))
  = Some (complementaryPoints member1 member2 found).
Proof.
  intros N.
  rewrite (non_self_breakdown _ _ _ _ (strict_eq_false _ _ N)).
  reflexivity.
Qed.

(** C7: for a non-self pair, a research object never lowers the points of
    the Complementary Value Exchange category below the keyword-derived
    value scored without it (nor, therefore, the total score). *)
Theorem research_never_lowers_complementary (member1 member2 : member)
    (similarity : R) (r : research) :
  member_id member1 <> member_id member2 ->
  exists without boosted : Z,
    pointsOf "Complementary Value Exchange"
      (breakdown (calculateMatchScore member1 member2 similarity None))
    = Some without
    /\ pointsOf "Complementary Value Exchange"
         (breakdown (calculateMatchScore member1 member2 similarity (Some r)))
       = Some boosted
    /\ without = keywordPoints member1 member2
    /\ without <= boosted
    /\ score (calculateMatchScore member1 member2 similarity None)
       <= score (calculateMatchScore member1 member2 similarity (Some r)).
Proof.
  intros N.
  exists (complementaryPoints member1 member2 None),
         (complementaryPoints member1 member2 (Some r)).
  pose proof (researchBoost_raises r (keywordPoints member1 member2)) as B.
  repeat split.
  - now apply pointsOf_complementary.
  - now apply pointsOf_complementary.
  - exact B.
  - rewrite !(score_non_self _ _ _ _ N).
    unfold complementaryPoints. lia.
Qed.

Lemma research_never_lowers_complementary_witness :
  exists without boosted : Z,
    pointsOf "Complementary Value Exchange"
      (breakdown (calculateMatchScore ann bob (1 / 2)%R None))
    = Some without
    /\ pointsOf "Complementary Value Exchange"
         (breakdown
            (calculateMatchScore ann bob (1 / 2)%R
               (Some {| creative_collaboration_ideas := Some ["a"; "b"];
                        value_rating := JStr "Low" |})))
       = Some boosted
    /\ without = keywordPoints ann bob
    /\ without <= boosted
    /\ score (calculateMatchScore ann bob (1 / 2)%R None)
       <= score
            (calculateMatchScore ann bob (1 / 2)%R
               (Some {| creative_collaboration_ideas := Some ["a"; "b"];
                        value_rating := JStr "Low" |})).
Proof.
  apply research_never_lowers_complementary. discriminate.
Defined.

(** ** Vector similarity *)

Section Cosine.

Local Open Scope R_scope.

Lemma cosine_loop_sums (v1 v2 : list R) (d n1 n2 : R) :
  List.length v1 = List.length v2 ->
  cosine_loop v1 v2 (d, n1, n2)
  = (d + dot v1 v2, n1 + sumsq v1, n2 + sumsq v2).
Proof.
  revert v2 d n1 n2.
  induction v1 as [|x r1 IH]; intros [|y r2] d n1 n2 L; simpl in L;
    try discriminate.
  - simpl. f_equal; [f_equal|]; ring.
  - simpl. rewrite IH by lia. f_equal; [f_equal|]; ring.
Qed.

Lemma sumsq_nonneg (v : list R) : 0 <= sumsq v.
Proof. induction v as [|x r IH]; simpl; [lra|]. nra. Qed.

Lemma sumsq_zero_iff (v : list R) :
  sumsq v = 0 <-> Forall (fun x => x = 0) v.
Proof.
  induction v as [|x r IH]; simpl.
  - split; auto.
  - pose proof (sumsq_nonneg r) as P. split.
    + intros H. assert (x * x = 0) by nra. assert (sumsq r = 0) by nra.
      constructor; [nra | now apply IH].
    + intros H. inversion H as [|? ? Hx Hr]; subst.
      apply IH in Hr. rewrite Hr. ring.
Qed.

Lemma magnitude_zero_iff (v : list R) : magnitude v = 0 <-> sumsq v = 0.
Proof.
  unfold magnitude. split.
  - intros H. apply sqrt_eq_0; [apply sumsq_nonneg | exact H].
  - intros ->. apply sqrt_0.
Qed.

(** the equal-length branch of [cosineSimilarity], in closed form *)
Lemma cosine_closed_form (v1 v2 : list R) :
  List.length v1 = List.length v2 ->
  cosineSimilarity (Some v1) (Some v2)
  = if Req_EM_T (sumsq v1) 0 then 0
    else if Req_EM_T (sumsq v2) 0 then 0
    else dot v1 v2 / (sqrt (sumsq v1) * sqrt (sumsq v2)).
Proof.
  intros L. unfold cosineSimilarity.
  rewrite L, Nat.eqb_refl. cbn [negb].
  rewrite (cosine_loop_sums v1 v2 0 0 0 L), !Rplus_0_l. reflexivity.
Qed.

Lemma cosine_length_mismatch (v1 v2 : list R) :
  List.length v1 <> List.length v2 ->
  cosineSimilarity (Some v1) (Some v2) = 0.
Proof.
  intros L. unfold cosineSimilarity.
  apply Nat.eqb_neq in L. now rewrite L.
Qed.

Lemma cauchy_step (x y a A B : R) :
  0 <= A -> 0 <= B -> a * a <= A * B ->
  (x * y + a) * (x * y + a) <= (x * x + A) * (y * y + B).
Proof.
  intros HA HB H.
  pose proof (sqrt_sqrt A HA) as SA. pose proof (sqrt_sqrt B HB) as SB.
  pose proof (sqrt_pos A) as PA. pose proof (sqrt_pos B) as PB.
  set (sa := sqrt A) in *. set (sb := sqrt B) in *.
  assert (P0 : 0 <= sa * sb) by (apply Rmult_le_pos; assumption).
  assert (E : (sa * sb) * (sa * sb) = A * B).
  { replace (sa * sb * (sa * sb)) with ((sa * sa) * (sb * sb)) by ring.
    now rewrite SA, SB. }
  assert (U : a <= sa * sb) by nra.
  assert (L : - (sa * sb) <= a) by nra.
  assert (Q1 : 0 <= (x * sb - y * sa) * (x * sb - y * sa))
    by apply Rle_0_sqr.
  assert (Q2 : 0 <= (x * sb + y * sa) * (x * sb + y * sa))
    by apply Rle_0_sqr.
  assert (E1 : (x * sb - y * sa) * (x * sb - y * sa)
               = x * x * B + y * y * A - 2 * (x * y) * (sa * sb)).
  { replace ((x * sb - y * sa) * (x * sb - y * sa))
      with (x * x * (sb * sb) + y * y * (sa * sa) - 2 * (x * y) * (sa * sb))
      by ring.
    now rewrite SA, SB. }
  assert (E2 : (x * sb + y * sa) * (x * sb + y * sa)
               = x * x * B + y * y * A + 2 * (x * y) * (sa * sb)).
  { replace ((x * sb + y * sa) * (x * sb + y * sa))
      with (x * x * (sb * sb) + y * y * (sa * sa) + 2 * (x * y) * (sa * sb))
      by ring.
    now rewrite SA, SB. }
  assert (M : 2 * (x * y) * a <= x * x * B + y * y * A).
  { destruct (Rle_dec 0 (x * y)) as [P|P].
    - assert (2 * (x * y) * a <= 2 * (x * y) * (sa * sb)) by nra. lra.
    - assert (2 * (x * y) * a <= 2 * (x * y) * (- (sa * sb))) by nra. lra. }
  nra.
Qed.

Lemma cauchy_schwarz (v1 v2 : list R) :
  dot v1 v2 * dot v1 v2 <= sumsq v1 * sumsq v2.
Proof.
  revert v2. induction v1 as [|x r1 IH]; intros [|y r2]; simpl.
  - lra.
  - pose proof (sumsq_nonneg r2). nra.
  - pose proof (sumsq_nonneg r1). nra.
  - apply cauchy_step; auto using sumsq_nonneg.
Qed.

Lemma quotient_in_unit_interval (d n1 n2 : R) :
  0 < n1 -> 0 < n2 -> d * d <= n1 * n2 ->
  -1 <= d / (sqrt n1 * sqrt n2) <= 1.
Proof.
  intros H1 H2 H.
  pose proof (sqrt_lt_R0 n1 H1) as P1. pose proof (sqrt_lt_R0 n2 H2) as P2.
  pose proof (sqrt_sqrt n1 (Rlt_le _ _ H1)) as S1.
  pose proof (sqrt_sqrt n2 (Rlt_le _ _ H2)) as S2.
  set (s := sqrt n1 * sqrt n2) in *.
  assert (Ps : 0 < s) by (apply Rmult_lt_0_compat; assumption).
  assert (E : s * s = n1 * n2).
  { unfold s.
    replace (sqrt n1 * sqrt n2 * (sqrt n1 * sqrt n2))
      with ((sqrt n1 * sqrt n1) * (sqrt n2 * sqrt n2)) by ring.
    now rewrite S1, S2. }
  assert (U : d <= s) by nra.
  assert (L : - s <= d) by nra.
  split.
  - apply Rmult_le_reg_r with s; [exact Ps|].
    unfold Rdiv. rewrite Rmult_assoc, Rinv_l by lra. lra.
  - apply Rmult_le_reg_r with s; [exact Ps|].
    unfold Rdiv. rewrite Rmult_assoc, Rinv_l by lra. lra.
Qed.

Lemma cosine_range (vec1 vec2 : option (list R)) :
  -1 <= cosineSimilarity vec1 vec2 <= 1.
Proof.
  destruct vec1 as [v1|], vec2 as [v2|]; try (simpl; lra).
  destruct (Nat.eq_dec (List.length v1) (List.length v2)) as [L|L].
  - rewrite (cosine_closed_form v1 v2 L).
    destruct (Req_EM_T (sumsq v1) 0) as [|N1]; [lra|].
    destruct (Req_EM_T (sumsq v2) 0) as [|N2]; [lra|].
    pose proof (sumsq_nonneg v1). pose proof (sumsq_nonneg v2).
    apply quotient_in_unit_interval; try lra.
    apply cauchy_schwarz.
  - rewrite (cosine_length_mismatch v1 v2 L). lra.
Qed.

Lemma cosine_degenerate (vec1 vec2 : option (list R)) :
  degenerate vec1 vec2 -> cosineSimilarity vec1 vec2 = 0.
Proof.
  destruct vec1 as [v1|], vec2 as [v2|]; try reflexivity.
  intros [L|Z]; [now apply cosine_length_mismatch|].
  destruct (Nat.eq_dec (List.length v1) (List.length v2)) as [L|L];
    [|now apply cosine_length_mismatch].
  rewrite (cosine_closed_form v1 v2 L).
  destruct Z as [Z|Z]; apply magnitude_zero_iff in Z.
  - destruct (Req_EM_T (sumsq v1) 0); [reflexivity | contradiction].
  - destruct (Req_EM_T (sumsq v1) 0); [reflexivity|].
    destruct (Req_EM_T (sumsq v2) 0); [reflexivity | contradiction].
Qed.




End Cosine.

(** *** The binary64 function on degenerate inputs *)

Section Binary64Facts.

Import PrimFloat.

Lemma loop64_zero_left (v1 v2 : list PrimFloat.float)
    (d n2 : PrimFloat.float) :
  Forall isZero64 v1 ->
  exists d' n2',
    Binary64.cosine_loop v1 v2 (d, PrimFloat.zero, n2)
    = (d', PrimFloat.zero, n2').
Proof.
  revert v2 d n2.
  induction v1 as [|x r1 IH]; intros v2 d n2 Z.
  - exists d, n2. destruct v2; reflexivity.
  - destruct v2 as [|y r2]; [exists d, n2; reflexivity|].
    inversion Z as [|? ? Zx Zr]; subst.
    destruct Zx as [-> | ->]; cbn [Binary64.cosine_loop].
    + replace (PrimFloat.add PrimFloat.zero
                 (PrimFloat.mul PrimFloat.zero PrimFloat.zero))
        with PrimFloat.zero by reflexivity.
      apply IH, Zr.
    + replace (PrimFloat.add PrimFloat.zero
                 (PrimFloat.mul PrimFloat.neg_zero PrimFloat.neg_zero))
        with PrimFloat.zero by reflexivity.
      apply IH, Zr.
Qed.

Lemma loop64_zero_right (v1 v2 : list PrimFloat.float)
    (d n1 : PrimFloat.float) :
  Forall isZero64 v2 ->
  exists d' n1',
    Binary64.cosine_loop v1 v2 (d, n1, PrimFloat.zero)
    = (d', n1', PrimFloat.zero).
Proof.
  revert v1 d n1.
  induction v2 as [|y r2 IH]; intros v1 d n1 Z.
  - exists d, n1. destruct v1; reflexivity.
  - destruct v1 as [|x r1]; [exists d, n1; reflexivity|].
    inversion Z as [|? ? Zy Zr]; subst.
    destruct Zy as [-> | ->]; cbn [Binary64.cosine_loop].
    + replace (PrimFloat.add PrimFloat.zero
                 (PrimFloat.mul PrimFloat.zero PrimFloat.zero))
        with PrimFloat.zero by reflexivity.
      apply IH, Zr.
    + replace (PrimFloat.add PrimFloat.zero
                 (PrimFloat.mul PrimFloat.neg_zero PrimFloat.neg_zero))
        with PrimFloat.zero by reflexivity.
      apply IH, Zr.
Qed.

Lemma cosine64_degenerate (vec1 vec2 : option (list PrimFloat.float)) :
  degenerate64 vec1 vec2 ->
  Binary64.cosineSimilarity vec1 vec2 = PrimFloat.zero.
Proof.
  destruct vec1 as [v1|], vec2 as [v2|]; try reflexivity.
  unfold Binary64.cosineSimilarity.
  destruct (List.length v1 =? List.length v2)%nat eqn:L; cbn [negb].
  - intros [N|[Z|Z]].
    + apply Nat.eqb_eq in L. contradiction.
    + destruct (loop64_zero_left v1 v2 PrimFloat.zero PrimFloat.zero Z)
        as (d' & n2' & E).
      change (0%float) with PrimFloat.zero. rewrite E. reflexivity.
    + destruct (loop64_zero_right v1 v2 PrimFloat.zero PrimFloat.zero Z)
        as (d' & n1' & E).
      change (0%float) with PrimFloat.zero. rewrite E.
      replace (PrimFloat.eqb PrimFloat.zero PrimFloat.zero) with true
        by reflexivity.
      rewrite orb_true_r. reflexivity.
  - reflexivity.
Qed.

(** C4 (as amended): [cosineSimilarity] is a total function; it returns
    exactly 0, in binary64 as in exact arithmetic, when a vector is absent,
    when the lengths differ and when a vector has zero magnitude; in exact
    real arithmetic every value it returns lies in [[-1, 1]]. *)
Theorem cosine_similarity_contract :
  (forall vec1 vec2 : option (list PrimFloat.float),
      degenerate64 vec1 vec2 ->
      Binary64.cosineSimilarity vec1 vec2 = PrimFloat.zero)
  /\ (forall vec1 vec2 : option (list R),
         (degenerate vec1 vec2 -> cosineSimilarity vec1 vec2 = 0%R)
         /\ (-1 <= cosineSimilarity vec1 vec2 <= 1)%R).
Proof.
  split.
  - apply cosine64_degenerate.
  - intros vec1 vec2. split.
    + apply cosine_degenerate.
    + apply cosine_range.
Qed.

Lemma cosine_similarity_contract_witness :
  Binary64.cosineSimilarity (Some [1; 2]%float) (Some [0; 0]%float)
  = PrimFloat.zero
  /\ cosineSimilarity (Some [1; 2]%R) (Some [1]%R) = 0%R.
Proof.
  split.
  - apply (proj1 cosine_similarity_contract).
    right; right. repeat constructor.
  - apply (proj2 cosine_similarity_contract).
    left. simpl. discriminate.
Defined.

(** C4, as stated, fails on the numbers the server computes with: in
    binary64 the vector (1, 1, 1) against itself has [dotProduct],
    [norm1] and [norm2] equal to 3, [Math.sqrt(3)] is
    1.7320508075688772, its square rounds to 2.9999999999999996, and the
    quotient is 1.0000000000000002, above 1. *)
Lemma cosine_binary64_exceeds_one :
  Binary64.cosine_loop [1; 1; 1]%float [1; 1; 1]%float (0, 0, 0)%float
  = (3, 3, 3)%float
  /\ (sqrt 3 * sqrt 3)%float = 0x1.7ffffffffffffp+1%float
  /\ Binary64.cosineSimilarity (Some [1; 1; 1]%float) (Some [1; 1; 1]%float)
     = 0x1.0000000000001p+0%float
  /\ PrimFloat.ltb 1%float
       (Binary64.cosineSimilarity (Some [1; 1; 1]%float)
          (Some [1; 1; 1]%float)) = true.
Proof. repeat split; vm_compute; reflexivity. Qed.




End Binary64Facts.

(** ** The total score on a similarity of the callers *)



(** ** Ranking a pool with a poisoned record *)

(** *** The scores of the loop *)



(** NaN and minus infinity stay what they are, and the filter drops
    them. *)
Lemma score64_not_a_number (member1 member2 : member)
    (similarity : PrimFloat.float) (found : option research) :
  member_id member1 <> member_id member2 ->
  (toNumber similarity = NaN ->
   calculateMatchScore64 member1 member2 similarity found = NaN)
  /\ (toNumber similarity = Infinity true ->
      calculateMatchScore64 member1 member2 similarity found = Infinity true)
  /\ (toNumber similarity = NaN \/ toNumber similarity = Infinity true ->
      lessThan (Finite 0)
        (calculateMatchScore64 member1 member2 similarity found) = false).
Proof.
  intros N. unfold calculateMatchScore64.
  rewrite (strict_eq_false _ _ N).
  repeat split; intros H; try destruct H as [H|H]; rewrite H; reflexivity.
Qed.













(** *** The sort *)





(** The sort is stable: the entries of one score keep their order. *)
Lemma insertByScore_stable (k : Z) (x : scoredCandidate)
    (l : list scoredCandidate) :
  filter (hasScore k) (insertByScore x l) = filter (hasScore k) (x :: l).
Proof.
  induction l as [|y r IH]; [reflexivity|].
  cbn [insertByScore].
  destruct (lessThan (sc_score x) (sc_score y)) eqn:E; [|reflexivity].
  cbn [filter] in *. rewrite IH. unfold hasScore.
  destruct (sc_score x) as [|[|]|a], (sc_score y) as [|[|]|b];
    cbn [lessThan] in E; try discriminate; try reflexivity.
  apply Z.ltb_lt in E.
  destruct (a =? k) eqn:X, (b =? k) eqn:Y; try reflexivity.
  apply Z.eqb_eq in X, Y. lia.
Qed.

Lemma sortByScore_stable (k : Z) (l : list scoredCandidate) :
  filter (hasScore k) (sortByScore l) = filter (hasScore k) l.
Proof.
  induction l as [|x r IH]; [reflexivity|].
  cbn [sortByScore fold_right]. rewrite insertByScore_stable.
  cbn [filter]. fold (sortByScore r). now rewrite IH.
Qed.




(** The value of a binary64 number: 0.5 is 2^52 * 2^-53. *)
Example toNumber_sample :
  exists x, toNumber (PrimFloat.div PrimFloat.one PrimFloat.two) = Finite x
            /\ (x = 1 / 2)%R.
Proof.
  exists (IZR 4503599627370496 * powerRZ 2 (-53))%R.
  split; [vm_compute; reflexivity|].
  change (powerRZ 2 (-53)) with (/ 2 ^ 53)%R.
  replace (2 ^ 53)%R with (IZR 9007199254740992)
    by (rewrite (pow_IZR 2 53); reflexivity).
  lra.
Qed.

(** The loop on two opposed stored vectors: the binary64 similarity is
    -1 and the entry holds the score 12 of the baseline floor above. *)
Example loop_score_sample :
  tryScore (blankMember (JStr "member-1"))
    (Some [PrimFloat.one; PrimFloat.zero])
    {| profile := blankMember (JStr "member-2");
       embedding_ops :=
         Fulfilled (Some [PrimFloat.opp PrimFloat.one; PrimFloat.zero]) |}
  = Fulfilled
      {| row := {| profile := blankMember (JStr "member-2");
                   embedding_ops :=
                     Fulfilled
                       (Some [PrimFloat.opp PrimFloat.one; PrimFloat.zero]) |};
         sc_score := Finite 12;
         sc_similarity := PrimFloat.opp PrimFloat.one;
         sc_error := None;
         sc_research := None |}.
Proof.
  unfold tryScore. cbn [embedding_ops bind_outcome profile].
  replace (Binary64.cosineSimilarity (Some [PrimFloat.one; PrimFloat.zero])
             (Some [PrimFloat.opp PrimFloat.one; PrimFloat.zero]))
    with (PrimFloat.opp PrimFloat.one) by (vm_compute; reflexivity).
  do 2 f_equal.
  unfold calculateMatchScore64.
  replace (toNumber (PrimFloat.opp PrimFloat.one))
    with (@Finite R (IZR (Z.neg 4503599627370496%positive)
                     * powerRZ 2 (-52))%R)
    by (vm_compute; reflexivity).
  cbn [blankMember member_id strict_eq String.eqb Ascii.eqb Bool.eqb].
  assert (V : (IZR (Z.neg 4503599627370496%positive) * powerRZ 2 (-52)
               = -1)%R).
  { change (powerRZ 2 (-52)) with (/ 2 ^ 52)%R.
    replace (2 ^ 52)%R with (IZR 4503599627370496)
      by (rewrite (pow_IZR 2 52); reflexivity).
    lra. }
  rewrite V.
  assert (S : semanticPoints (-1)%R = -20).
  { unfold semanticPoints, maxSemanticPoints. apply Math_round_eq. lra. }
  assert (N : member_id (blankMember (JStr "member-1"))
              <> member_id (blankMember (JStr "member-2")))
    by discriminate.
  rewrite (score_non_self _ _ _ _ N), S. reflexivity.
Qed.




(** A stored vector that parses can still leave its candidate without a
    number for a score: an element that is no number, or a numeral beyond
    the binary64 range, makes the similarity NaN. *)
Lemma similarity_not_a_number :
  toNumber
    (Binary64.cosineSimilarity (Some [PrimFloat.one; PrimFloat.zero])
       (Some [PrimFloat.nan; PrimFloat.zero])) = NaN
  /\ toNumber
       (Binary64.cosineSimilarity (Some [PrimFloat.one; PrimFloat.zero])
          (Some [PrimFloat.infinity; PrimFloat.zero])) = NaN.
Proof. split; vm_compute; reflexivity. Qed.


(** ** The fallback rationale *)










(** In generate-brainstorm stage 0 runs inside the [try] of the loop, so
    with a capability that always fails no row is written at all. *)
Lemma brainstorm_writes_nothing (ai : capability) (memberId : string)
    (subject : member) (selected : list scoredCandidate)
    (table : list intro) :
  alwaysFails ai ->
  fst (storeAll brainstorm ai memberId subject selected table) = table.
Proof.
  intros (_ & _ & F0 & _). unfold storeAll.
  generalize (@nil logEntry) as log. revert table.
  induction selected as [|m rest IH]; intros table log; [reflexivity|].
  cbn [fold_left]. unfold storeBrainstorm at 2.
  destruct (F0 subject (profile (row m))) as [msg E]. rewrite E.
  cbn [fst snd]. apply IH.
Qed.

(** In generate-top3 every selected match gets its row. *)
Lemma top3_writes_fallback_row :
  fst (storeAll top3 deadCapability "member-1" ann
         [zeroEntry {| profile := bob; embedding_ops := Fulfilled None |}
            "none"] [])
  = [ introOf "member-1" top3
        (zeroEntry {| profile := bob; embedding_ops := Fulfilled None |}
           "none")
        (generateSimpleRationale ann bob) ].
Proof. reflexivity. Qed.


